(** * geoalchemy2.types: the spatial column types

    A shallow embedding of [geoalchemy2/types.py]: the classes [_GISType],
    [Geometry], [Geography] and [Raster], their constructors and hooks, and the
    registration of the three types in SQLAlchemy's reflection table.

    Conventions of the embedding.
    - A Python object is a record of attribute slots, each unset until
      [__init__] assigns it; a method is a computation over the state of
      [self] that may raise.
    - Strings are byte strings (Python 2 [str]); integers are unbounded ([Z]);
      a float is an IEEE binary64 value, written as its sign, mantissa and
      exponent ([spec_float]).
    - The builtins the module calls ([int], [str.upper], [%]-formatting) are
      embedded for the values listed in [value]. *)

From Stdlib Require Import ZArith String Ascii List Lia.
From Stdlib Require Import DecimalString DecimalPos SpecFloat.
From stdpp Require Import base strings gmap.

Set Warnings "-clear-no-such-hyp".

Local Open Scope Z_scope.

(** ** Python values, exceptions, results *)

(** The argument values a column declaration passes to the constructors. *)
Inductive value : Type :=
| VNone
| VBool (b : bool)
| VInt (n : Z)
| VFloat (f : spec_float)
| VStr (s : string).

(** The exceptions that the builtins used by this module raise. *)
Inductive exn : Type :=
| AttributeError
| TypeError
| ValueError
| OverflowError.

Inductive result (A : Type) : Type :=
| Ok (a : A)
| Raise (e : exn).

Arguments Ok {A} a.
Arguments Raise {A} e.

Definition is_ok {A : Type} (r : result A) : bool :=
  match r with Ok _ => true | Raise _ => false end.

(** ** Builtins *)

Module Py.

(** [str.upper] on a byte string: the letters [a]..[z] go to [A]..[Z], every
    other byte is kept. *)
Definition upper_char (c : ascii) : ascii :=
  let n := N_of_ascii c in
  if ((97 <=? n) && (n <=? 122))%N then ascii_of_N (n - 32) else c.

Fixpoint upper (s : string) : string :=
  match s with
  | EmptyString => EmptyString
  | String c s' => String (upper_char c) (upper s')
  end.

Definition lower_char (c : ascii) : ascii :=
  let n := N_of_ascii c in
  if ((65 <=? n) && (n <=? 90))%N then ascii_of_N (n + 32) else c.

Fixpoint lower (s : string) : string :=
  match s with
  | EmptyString => EmptyString
  | String c s' => String (lower_char c) (lower s')
  end.

(** [v.upper()]: only [str] has the method among the values of [value]. *)
Definition call_upper (v : value) : result string :=
  match v with
  | VStr s => Ok (upper s)
  | _ => Raise AttributeError
  end.

(** Whitespace as [int] skips it: tab, LF, VT, FF, CR, space. *)
Definition is_space (c : ascii) : bool :=
  let n := N_of_ascii c in
  (((9 <=? n) && (n <=? 13)) || (n =? 32))%N.

Fixpoint lstrip (s : string) : string :=
  match s with
  | EmptyString => EmptyString
  | String c s' => if is_space c then lstrip s' else s
  end.

Fixpoint all_space (s : string) : bool :=
  match s with
  | EmptyString => true
  | String c s' => is_space c && all_space s'
  end.

Definition digit_of (c : ascii) : option Z :=
  let n := N_of_ascii c in
  if ((48 <=? n) && (n <=? 57))%N then Some (Z.of_N (n - 48)) else None.

(** Reads decimal digits, most significant first, up to trailing
    whitespace. *)
Fixpoint parse_digits (acc : Z) (s : string) : option Z :=
  match s with
  | EmptyString => Some acc
  | String c s' =>
      match digit_of c with
      | Some d => parse_digits (10 * acc + d) s'
      | None => if all_space s then Some acc else None
      end
  end.

(** [int(s)] for a string in base 10: optional surrounding whitespace, an
    optional sign, at least one digit. *)
Definition parse_int (s : string) : option Z :=
  let s1 := lstrip s in
  let '(negative, s2) :=
    match s1 with
    | String "-"%char r => (true, r)
    | String "+"%char r => (false, r)
    | _ => (false, s1)
    end in
  match s2 with
  | EmptyString => None
  | String c _ =>
      match digit_of c with
      | None => None
      | Some _ =>
          match parse_digits 0 s2 with
          | Some n => Some (if negative : bool then - n else n)
          | None => None
          end
      end
  end.

(** [int(f)] for a float: the value [(-1)^s * m * 2^e] with its fractional
    part dropped; infinities and NaN have no integer value. *)
Definition float_to_int (f : spec_float) : result Z :=
  match f with
  | S754_zero _ => Ok 0
  | S754_infinity _ => Raise OverflowError
  | S754_nan => Raise ValueError
  | S754_finite s m e =>
      let a := if 0 <=? e then Z.pos m * 2 ^ e else Z.pos m / 2 ^ (- e) in
      Ok (if s then - a else a)
  end.

(** The builtin [int]. *)
Definition int (v : value) : result Z :=
  match v with
  | VNone => Raise TypeError
  | VBool b => Ok (Z.b2z b)
  | VInt n => Ok n
  | VFloat f => float_to_int f
  | VStr s =>
      match parse_int s with
      | Some n => Ok n
      | None => Raise ValueError
      end
  end.

(** ['%d' % n] for an integer. *)
Definition format_d (n : Z) : string :=
  NilEmpty.string_of_int (Z.to_int n).

(** ['%s' % x] for a class attribute that holds a string or [None]. *)
Definition format_s (x : option string) : string :=
  match x with
  | Some s => s
  | None => "None"
  end.

End Py.

(** ** Classes and objects *)

(** The classes defined by the module. *)
Inductive pyclass : Type :=
| _GISType
| Geometry
| Geography
| Raster.

(** The base class named in each [class] statement, when the module defines
    it; [None] stands for the framework's [UserDefinedType]. *)
Definition base (c : pyclass) : option pyclass :=
  match c with
  | Geometry | Geography => Some _GISType
  | _GISType | Raster => None
  end.

(** The data attributes assigned in each class body ([None] is Python's
    [None]).  [comparator_factory] refers to classes of another module and is
    left out. *)
Definition class_dict (c : pyclass) : gmap string (option string) :=
  match c with
  | _GISType => <["from_text" := None]> (<["name" := None]> ∅)
  | Geometry =>
      <["from_text" := Some "ST_GeomFromText"]> (<["name" := Some "geometry"]> ∅)
  | Geography =>
      <["from_text" := Some "ST_GeogFromText"]> (<["name" := Some "geography"]> ∅)
  | Raster => ∅
  end.

(** The methods defined in each class body. *)
Definition class_methods (c : pyclass) : list string :=
  match c with
  | _GISType =>
      ["__init__"; "get_col_spec"; "column_expression"; "result_processor";
       "bind_expression"]
  | Geometry | Geography => []
  | Raster => ["__init__"; "get_col_spec"; "result_processor"]
  end.

(** Method resolution order, restricted to the classes of this module. *)
Definition mro (c : pyclass) : list pyclass :=
  c :: match base c with Some b => [b] | None => [] end.

(** The class of [mro c] whose body defines method [m]; [None] when the
    lookup falls through to the framework's base class. *)
Definition resolve (c : pyclass) (m : string) : option pyclass :=
  List.find (fun k => bool_decide (m ∈ class_methods k)) (mro c).

(** Lookup of a data attribute on the class, along [mro]. *)
Definition class_attr (c : pyclass) (a : string) : option (option string) :=
  match List.find (fun k => bool_decide (is_Some (class_dict k !! a))) (mro c) with
  | Some k => class_dict k !! a
  | None => None
  end.

(** An instance: its class and the attributes that the constructors of this
    module assign.  A slot is [None] until it is assigned. *)
Record object : Type := mk_object {
  ob_class : pyclass;
  geometry_type : option string;
  srid : option Z;
  dimension : option value;
  spatial_index : option value;
  management : option value
}.

(** The object [cls.__new__] hands to [__init__]: no attribute assigned. *)
Definition new_object (cls : pyclass) : object :=
  mk_object cls None None None None None.

(** ** Computations over [self] *)

Definition M (A : Type) : Type := object -> object * result A.

Definition ret {A : Type} (a : A) : M A := fun self => (self, Ok a).

Definition raise {A : Type} (e : exn) : M A := fun self => (self, Raise e).

Definition bind {A B : Type} (c : M A) (k : A -> M B) : M B :=
  fun self =>
    match c self with
    | (self', Ok a) => k a self'
    | (self', Raise e) => (self', Raise e)
    end.

Notation "x <- c ;; k" := (bind c (fun x => k))
  (at level 100, c at next level, right associativity).
Notation "c ;;; k" := (bind c (fun _ => k))
  (at level 100, k at level 200, right associativity).

(** A builtin's result, raised or returned inside a method. *)
Definition lift {A : Type} (r : result A) : M A := fun self => (self, r).

(** The reference [self] itself. *)
Definition this : M object := fun self => (self, Ok self).

(** [self.a] for an instance slot. *)
Definition getattr {A : Type} (slot : object -> option A) : M A :=
  fun self =>
    match slot self with
    | Some v => (self, Ok v)
    | None => (self, Raise AttributeError)
    end.

(** [self.a] for an attribute found on the class. *)
Definition getattr_class (a : string) : M (option string) :=
  fun self =>
    match class_attr (ob_class self) a with
    | Some v => (self, Ok v)
    | None => (self, Raise AttributeError)
    end.

(** [self.a = v], one definition per slot. *)
Definition set_geometry_type (v : string) : M unit :=
  fun self =>
    (mk_object (ob_class self) (Some v) (srid self) (dimension self)
       (spatial_index self) (management self), Ok tt).

Definition set_srid (v : Z) : M unit :=
  fun self =>
    (mk_object (ob_class self) (geometry_type self) (Some v) (dimension self)
       (spatial_index self) (management self), Ok tt).

Definition set_dimension (v : value) : M unit :=
  fun self =>
    (mk_object (ob_class self) (geometry_type self) (srid self) (Some v)
       (spatial_index self) (management self), Ok tt).

Definition set_spatial_index (v : value) : M unit :=
  fun self =>
    (mk_object (ob_class self) (geometry_type self) (srid self) (dimension self)
       (Some v) (management self), Ok tt).

Definition set_management (v : value) : M unit :=
  fun self =>
    (mk_object (ob_class self) (geometry_type self) (srid self) (dimension self)
       (spatial_index self) (Some v), Ok tt).

(** An argument of a call, [None] when the caller leaves it out and the
    default of the [def] line applies. *)
Definition arg (default : value) (a : option value) : value :=
  match a with
  | Some v => v
  | None => default
  end.

(** ** Collaborators *)

(** Modelled from the spec: [geoalchemy2.elements.WKBElement], which holds the
    raw encoded bytes and the SRID supplied by the owning column type. *)
Record WKBElement : Type := mk_WKBElement {
  wkb_data : list Byte.byte;
  wkb_srid : Z
}.

(** Modelled from the spec: [geoalchemy2.elements.RasterElement], which holds
    the raw encoded bytes. *)
Record RasterElement : Type := mk_RasterElement {
  raster_data : list Byte.byte
}.

(** SQL expressions of the framework, as far as the hooks build them:
    [Func f args t] is the call of [func.f] on [args] with [type_=t]. *)
#[warnings="-register-all"]
Inductive expr : Type :=
| Column (name : string)
| BindParameter (key : string)
| Func (fname : string) (clauses : list expr) (type_ : option object).

(** ** class _GISType(UserDefinedType) *)

Module _GISType.

Definition __init__
    (geometry_type srid dimension spatial_index management : option value)
    : M unit :=
  g <- lift (Py.call_upper (arg (VStr "GEOMETRY") geometry_type)) ;;
  set_geometry_type g ;;;
  n <- lift (Py.int (arg (VInt (-1)) srid)) ;;
  set_srid n ;;;
  set_dimension (arg (VInt 2) dimension) ;;;
  set_spatial_index (arg (VBool true) spatial_index) ;;;
  set_management (arg (VBool false) management).

Definition get_col_spec : M string :=
  name <- getattr_class "name" ;;
  g <- getattr geometry_type ;;
  n <- getattr srid ;;
  ret (Py.format_s name +:+ "(" +:+ g +:+ "," +:+ Py.format_d n +:+ ")").

Definition column_expression (col : expr) : M expr :=
  self <- this ;;
  ret (Func "ST_AsBinary" [col] (Some self)).

(** The inner function [process] of [result_processor]; it reads [self.srid]
    when it is called. *)
Definition process (value : option (list Byte.byte)) : M (option WKBElement) :=
  match value with
  | Some v =>
      n <- getattr srid ;;
      ret (Some (mk_WKBElement v n))
  | None => ret None
  end.

Definition result_processor {D C : Type} (dialect : D) (coltype : C)
    : M (option (list Byte.byte) -> M (option WKBElement)) :=
  ret process.

(** [getattr(func, self.from_text)] needs a string for the attribute name. *)
Definition bind_expression (bindvalue : expr) : M expr :=
  from_text <- getattr_class "from_text" ;;
  match from_text with
  | Some f =>
      self <- this ;;
      ret (Func f [bindvalue] (Some self))
  | None => raise TypeError
  end.

End _GISType.

(** ** class Raster(UserDefinedType) *)

Module Raster.

Definition __init__ (spatial_index : option value) : M unit :=
  set_spatial_index (arg (VBool true) spatial_index).

Definition get_col_spec : M string :=
  ret "raster".

Definition process (value : option (list Byte.byte)) : M (option RasterElement) :=
  match value with
  | Some v => ret (Some (mk_RasterElement v))
  | None => ret None
  end.

Definition result_processor {D C : Type} (dialect : D) (coltype : C)
    : M (option (list Byte.byte) -> M (option RasterElement)) :=
  ret process.

End Raster.

(** ** Calling a class *)

(** [cls(...)]: a new object is initialised by [init]; when [init] raises,
    the exception propagates and the caller receives no object. *)
Definition instantiate (cls : pyclass) (init : M unit) : result object :=
  match init (new_object cls) with
  | (self, Ok _) => Ok self
  | (_, Raise e) => Raise e
  end.

(** [cls(geometry_type=..., srid=..., dimension=..., spatial_index=...,
    management=...)], each argument [None] when the call leaves it out.
    [__init__] is found along the classes of [cls]; [Raster.__init__] has the
    parameter [spatial_index] only, and any other argument is a
    [TypeError]. *)
Definition call (cls : pyclass)
    (geometry_type srid dimension spatial_index management : option value)
    : result object :=
  match resolve cls "__init__" with
  | Some Raster =>
      match geometry_type, srid, dimension, management with
      | None, None, None, None => instantiate cls (Raster.__init__ spatial_index)
      | _, _, _, _ => Raise TypeError
      end
  | Some _ =>
      instantiate cls
        (_GISType.__init__ geometry_type srid dimension spatial_index management)
  | None => Raise TypeError
  end.

(** ** The hooks as the framework calls them on an instance *)

(** The framework's [TypeEngine] gives [bind_expression] and
    [column_expression] a default that returns [None]: the expression is then
    used as it is. *)
Definition TypeEngine_default_expression (e : expr) : M (option expr) :=
  ret None.

Definition get_col_spec : M string :=
  fun self =>
    match resolve (ob_class self) "get_col_spec" with
    | Some Raster => Raster.get_col_spec self
    | Some _ => _GISType.get_col_spec self
    | None => (self, Raise AttributeError)
    end.

Definition column_expression (col : expr) : M (option expr) :=
  fun self =>
    match resolve (ob_class self) "column_expression" with
    | Some _ => (e <- _GISType.column_expression col ;; ret (Some e)) self
    | None => TypeEngine_default_expression col self
    end.

Definition bind_expression (bindvalue : expr) : M (option expr) :=
  fun self =>
    match resolve (ob_class self) "bind_expression" with
    | Some _ => (e <- _GISType.bind_expression bindvalue ;; ret (Some e)) self
    | None => TypeEngine_default_expression bindvalue self
    end.

(** ** Registration in the reflection table *)

Section Registration.

Context {C : Type}.

(** The three assignments that end the module, for the class objects
    [geometry_cls], [geography_cls] and [raster_cls] that this execution of
    the module has created. *)
Definition register (geometry_cls geography_cls raster_cls : C)
    (ischema_names : gmap string C) : gmap string C :=
  <["raster" := raster_cls]>
    (<["geography" := geography_cls]>
       (<["geometry" := geometry_cls]> ischema_names)).

(** The number of entries of the table stored under [key]. *)
Definition entries (key : string) (ischema_names : gmap string C) : nat :=
  length (filter (fun kv => kv.1 = key) (map_to_list ischema_names)).

End Registration.

(** ** Vocabulary of the statements *)

Definition is_lower_letter (c : ascii) : bool :=
  let n := N_of_ascii c in ((97 <=? n) && (n <=? 122))%N.

Fixpoint has_lower_letter (s : string) : bool :=
  match s with
  | EmptyString => false
  | String c s' => is_lower_letter c || has_lower_letter s'
  end.

(** The number that the decimal digits [d] denote after the digits already
    read gave [acc]. *)
Fixpoint uint_value (acc : Z) (d : Decimal.uint) : Z :=
  match d with
  | Decimal.Nil => acc
  | Decimal.D0 l => uint_value (10 * acc + 0) l
  | Decimal.D1 l => uint_value (10 * acc + 1) l
  | Decimal.D2 l => uint_value (10 * acc + 2) l
  | Decimal.D3 l => uint_value (10 * acc + 3) l
  | Decimal.D4 l => uint_value (10 * acc + 4) l
  | Decimal.D5 l => uint_value (10 * acc + 5) l
  | Decimal.D6 l => uint_value (10 * acc + 6) l
  | Decimal.D7 l => uint_value (10 * acc + 7) l
  | Decimal.D8 l => uint_value (10 * acc + 8) l
  | Decimal.D9 l => uint_value (10 * acc + 9) l
  end.

(** The descriptor that a successful call of a [_GISType] class returns. *)
Definition descriptor (cls : pyclass) (kind : string) (n : Z)
    (dimension spatial_index management : option value) : object :=
  mk_object cls (Some (Py.upper kind)) (Some n)
    (Some (arg (VInt 2) dimension)) (Some (arg (VBool true) spatial_index))
    (Some (arg (VBool false) management)).

Ltac each_byte c := destruct c as [[] [] [] [] [] [] [] []]; vm_compute; reflexivity.


(** Whether the character [c] occurs in [s]. *)
Fixpoint has_char (c : ascii) (s : string) : bool :=
  match s with
  | EmptyString => false
  | String c' s' => Ascii.eqb c' c || has_char c s'
  end.

(** The module executed once per element of [runs], each execution with the
    class objects it has created, oldest first. *)
Definition register_all {C : Type} (runs : list (C * C * C))
    (ischema_names : gmap string C) : gmap string C :=
  fold_left (fun t r => register r.1.1 r.1.2 r.2 t) runs ischema_names.

(** * Properties *)

(** ** Method and attribute resolution *)

Lemma resolve_init (c : pyclass) :
  resolve c "__init__" = Some (match c with Raster => Raster | _ => _GISType end).
Proof. destruct c; vm_compute; reflexivity. Qed.

Lemma resolve_get_col_spec (c : pyclass) :
  resolve c "get_col_spec" = Some (match c with Raster => Raster | _ => _GISType end).
Proof. destruct c; vm_compute; reflexivity. Qed.

Lemma resolve_column_expression (c : pyclass) :
  resolve c "column_expression" = match c with Raster => None | _ => Some _GISType end.
Proof. destruct c; vm_compute; reflexivity. Qed.

Lemma resolve_bind_expression (c : pyclass) :
  resolve c "bind_expression" = match c with Raster => None | _ => Some _GISType end.
Proof. destruct c; vm_compute; reflexivity. Qed.

Lemma class_attr_name (c : pyclass) :
  class_attr c "name" =
  match c with
  | _GISType => Some None
  | Geometry => Some (Some "geometry")
  | Geography => Some (Some "geography")
  | Raster => None
  end.
Proof. destruct c; vm_compute; reflexivity. Qed.

Lemma class_attr_from_text (c : pyclass) :
  class_attr c "from_text" =
  match c with
  | _GISType => Some None
  | Geometry => Some (Some "ST_GeomFromText")
  | Geography => Some (Some "ST_GeogFromText")
  | Raster => None
  end.
Proof. destruct c; vm_compute; reflexivity. Qed.

(** ** What a call returns *)

Lemma base_not_Raster cls : base cls = Some _GISType -> cls <> Raster.
Proof. intros Hbase ->. discriminate Hbase. Qed.

Lemma call_GISType cls g s d si m :
  cls <> Raster ->
  call cls g s d si m = instantiate cls (_GISType.__init__ g s d si m).
Proof. intros Hcls. unfold call. rewrite resolve_init. now destruct cls. Qed.

(** [_GISType.__init__] step by step: [upper] on the kind, then [int] on the
    SRID, then the three plain assignments. *)
Lemma GISType_init_run cls g s d si m :
  _GISType.__init__ g s d si m (new_object cls) =
  match Py.call_upper (arg (VStr "GEOMETRY") g) with
  | Raise e => (new_object cls, Raise e)
  | Ok kind =>
      match Py.int (arg (VInt (-1)) s) with
      | Raise e => (mk_object cls (Some kind) None None None None, Raise e)
      | Ok n =>
          (mk_object cls (Some kind) (Some n) (Some (arg (VInt 2) d))
             (Some (arg (VBool true) si)) (Some (arg (VBool false) m)), Ok tt)
      end
  end.
Proof.
  unfold _GISType.__init__, bind, lift.
  destruct (Py.call_upper (arg (VStr "GEOMETRY") g)) as [kind|e]; [|reflexivity].
  simpl. destruct (Py.int (arg (VInt (-1)) s)) as [n|e]; reflexivity.
Qed.

(** A call of a [_GISType] class that returns an object returns one with all
    five attributes assigned: the kind upper-cased, the SRID as [int] gave
    it, the three others as passed. *)
Lemma call_GISType_Ok cls g s d si m self :
  cls <> Raster ->
  call cls g s d si m = Ok self ->
  exists kind n,
    arg (VStr "GEOMETRY") g = VStr kind /\
    Py.int (arg (VInt (-1)) s) = Ok n /\
    self = descriptor cls kind n d si m.
Proof.
  intros Hcls. rewrite call_GISType by exact Hcls.
  unfold instantiate. rewrite GISType_init_run.
  destruct (arg (VStr "GEOMETRY") g) as [| | | |kind]; simpl; try discriminate.
  destruct (Py.int (arg (VInt (-1)) s)) as [n|e]; simpl; try discriminate.
  intros [= <-]. now exists kind, n.
Qed.

Lemma call_GISType_str cls kind s d si m n :
  cls <> Raster ->
  Py.int (arg (VInt (-1)) s) = Ok n ->
  call cls (Some (VStr kind)) s d si m = Ok (descriptor cls kind n d si m).
Proof.
  intros Hcls Hint. rewrite call_GISType by exact Hcls.
  unfold instantiate. rewrite GISType_init_run. simpl. now rewrite Hint.
Qed.

Lemma call_GISType_int_raises cls g kind s d si m e :
  cls <> Raster ->
  arg (VStr "GEOMETRY") g = VStr kind ->
  Py.int (arg (VInt (-1)) s) = Raise e ->
  call cls g s d si m = Raise e.
Proof.
  intros Hcls Hkind Hint. rewrite call_GISType by exact Hcls.
  unfold instantiate. rewrite GISType_init_run, Hkind. simpl. now rewrite Hint.
Qed.

Lemma call_Raster si :
  call Raster None None None si None =
  Ok (mk_object Raster None None None (Some (arg (VBool true) si)) None).
Proof. reflexivity. Qed.

(** ** Upper-casing *)

Lemma upper_char_idempotent c : Py.upper_char (Py.upper_char c) = Py.upper_char c.
Proof. each_byte c. Qed.

Lemma upper_char_lower_char c : Py.upper_char (Py.lower_char c) = Py.upper_char c.
Proof. each_byte c. Qed.

Lemma upper_char_not_lower c : is_lower_letter (Py.upper_char c) = false.
Proof. each_byte c. Qed.

Lemma upper_char_fixes c : is_lower_letter c = false -> Py.upper_char c = c.
Proof. unfold Py.upper_char, is_lower_letter. intros ->. reflexivity. Qed.

Lemma upper_idempotent s : Py.upper (Py.upper s) = Py.upper s.
Proof.
  induction s as [|c s IH]; simpl; [reflexivity|].
  now rewrite upper_char_idempotent, IH.
Qed.

Lemma upper_lower s : Py.upper (Py.lower s) = Py.upper s.
Proof.
  induction s as [|c s IH]; simpl; [reflexivity|].
  now rewrite upper_char_lower_char, IH.
Qed.

Lemma upper_no_lower_letter s : has_lower_letter (Py.upper s) = false.
Proof.
  induction s as [|c s IH]; simpl; [reflexivity|].
  now rewrite upper_char_not_lower, IH.
Qed.

Lemma upper_fixes s : has_lower_letter s = false -> Py.upper s = s.
Proof.
  induction s as [|c s IH]; simpl; [reflexivity|].
  intros [Hc Hs]%orb_false_iff. now rewrite upper_char_fixes, IH.
Qed.

Lemma upper_case_insensitive s t : Py.lower s = Py.lower t -> Py.upper s = Py.upper t.
Proof. intros H. rewrite <- (upper_lower s), <- (upper_lower t). now rewrite H. Qed.

(** C7: for every string [kind] and every integer [n], negative ones
    included, the constructor of a class declared with base [_GISType]
    ([Geometry], [Geography]) returns a descriptor whose [geometry_type] is
    [kind] upper-cased and whose [srid] is [n] itself.  The stored kind
    contains no lower-case letter, and two inputs that differ only in case
    store the same kind. *)
Theorem init_stores_upper_kind_and_srid :
  forall cls (kind : string) (n : Z) d si m,
    base cls = Some _GISType ->
    (exists self,
       call cls (Some (VStr kind)) (Some (VInt n)) d si m = Ok self /\
       geometry_type self = Some (Py.upper kind) /\
       srid self = Some n) /\
    has_lower_letter (Py.upper kind) = false /\
    (forall kind',
       Py.lower kind' = Py.lower kind ->
       call cls (Some (VStr kind')) (Some (VInt n)) d si m =
       call cls (Some (VStr kind)) (Some (VInt n)) d si m).
Proof.
  intros cls kind n d si m Hcls%base_not_Raster.
  assert (Hcall : forall k,
    call cls (Some (VStr k)) (Some (VInt n)) d si m = Ok (descriptor cls k n d si m))
    by (intros k; now apply call_GISType_str).
  split; [|split].
  - eexists. split; [apply Hcall|]. split; reflexivity.
  - apply upper_no_lower_letter.
  - intros kind' Hcase. rewrite !Hcall. unfold descriptor.
    now rewrite (upper_case_insensitive _ _ Hcase).
Qed.

Lemma init_stores_upper_kind_and_srid_witness :
  exists self,
    call Geography (Some (VStr "MultiPolygon")) (Some (VInt (-4326))) None None None
    = Ok self /\
    geometry_type self = Some "MULTIPOLYGON" /\
    srid self = Some (-4326).
Proof.
  refine (proj1 (init_stores_upper_kind_and_srid Geography "MultiPolygon" (-4326)
                   None None None _)).
  reflexivity.
Defined.

(** ** The DDL hook *)

Lemma GISType_get_col_spec_eq self name kind n :
  class_attr (ob_class self) "name" = Some name ->
  geometry_type self = Some kind ->
  srid self = Some n ->
  _GISType.get_col_spec self =
  (self, Ok (Py.format_s name +:+ "(" +:+ kind +:+ "," +:+ Py.format_d n +:+ ")")).
Proof.
  intros Hname Hkind Hsrid.
  unfold _GISType.get_col_spec, bind, getattr_class, getattr, ret.
  now rewrite Hname, Hkind, Hsrid.
Qed.

Lemma get_col_spec_descriptor cls kind n d si m name :
  cls <> Raster ->
  class_attr cls "name" = Some name ->
  get_col_spec (descriptor cls kind n d si m) =
  (descriptor cls kind n d si m,
   Ok (Py.format_s name +:+ "(" +:+ Py.upper kind +:+ "," +:+ Py.format_d n +:+ ")")).
Proof.
  intros Hcls Hname. unfold get_col_spec.
  change (ob_class (descriptor cls kind n d si m)) with cls.
  rewrite resolve_get_col_spec.
  destruct cls; try congruence; now apply GISType_get_col_spec_eq.
Qed.

(** C4: a constructed [Geometry] or [Geography] descriptor answers
    [get_col_spec] with its type name, an opening parenthesis, the stored
    geometry kind, a comma, the stored SRID in decimal and a closing
    parenthesis; the type name is ["geometry"] for [Geometry] and
    ["geography"] for [Geography].  [Geometry(geometry_type="POINT",
    srid=4326)] gives ["geometry(POINT,4326)"], and
    [Geography(geometry_type="LINESTRING")] with the default SRID gives
    ["geography(LINESTRING,-1)"]. *)
Theorem get_col_spec_format :
  (forall cls g s d si m self,
     base cls = Some _GISType ->
     call cls g s d si m = Ok self ->
     exists name kind n,
       class_attr cls "name" = Some (Some name) /\
       name = (match cls with Geometry => "geometry" | _ => "geography" end) /\
       geometry_type self = Some kind /\
       srid self = Some n /\
       get_col_spec self =
       (self, Ok (name +:+ "(" +:+ kind +:+ "," +:+ Py.format_d n +:+ ")"))) /\
  (exists self,
     call Geometry (Some (VStr "POINT")) (Some (VInt 4326)) None None None = Ok self /\
     get_col_spec self = (self, Ok "geometry(POINT,4326)")) /\
  (exists self,
     call Geography (Some (VStr "LINESTRING")) None None None None = Ok self /\
     get_col_spec self = (self, Ok "geography(LINESTRING,-1)")).
Proof.
  split; [|split].
  - intros cls g s d si m self Hbase Hcall.
    pose proof (base_not_Raster _ Hbase) as Hcls.
    apply call_GISType_Ok in Hcall as (kind & n & _ & _ & ->); [|exact Hcls].
    assert (Hname : class_attr cls "name" =
                    Some (Some (match cls with Geometry => "geometry" | _ => "geography" end)))
      by (rewrite class_attr_name; destruct cls; try discriminate; reflexivity).
    eexists _, (Py.upper kind), n.
    split; [exact Hname|]. split; [reflexivity|].
    split; [reflexivity|]. split; [reflexivity|].
    now rewrite (get_col_spec_descriptor _ _ _ _ _ _ _ Hcls Hname).
  - eexists. split; vm_compute; reflexivity.
  - eexists. split; vm_compute; reflexivity.
Qed.

Lemma get_col_spec_format_witness :
  exists name kind n,
    class_attr Geometry "name" = Some (Some name) /\
    name = "geometry" /\
    geometry_type (descriptor Geometry "polygon" 3857 None None None) = Some kind /\
    srid (descriptor Geometry "polygon" 3857 None None None) = Some n /\
    get_col_spec (descriptor Geometry "polygon" 3857 None None None) =
    (descriptor Geometry "polygon" 3857 None None None,
     Ok (name +:+ "(" +:+ kind +:+ "," +:+ Py.format_d n +:+ ")")).
Proof.
  apply (proj1 get_col_spec_format Geometry
           (Some (VStr "polygon")) (Some (VInt 3857)) None None None).
  - reflexivity.
  - vm_compute. reflexivity.
Defined.

(** ** Decoding fetched values *)

(** C1: the closure that [result_processor] returns for a constructed
    [Geometry] or [Geography] descriptor maps [None] to [None] and any fetched
    bytes to a [WKBElement] holding these bytes and the SRID of the
    descriptor; the closure of a [Raster] descriptor maps [None] to [None]
    and any fetched bytes to a [RasterElement] holding them. *)
Theorem result_processor_decodes :
  forall (D C : Type) (dialect : D) (coltype : C),
    (forall cls g s d si m self,
       base cls = Some _GISType ->
       call cls g s d si m = Ok self ->
       exists process n,
         _GISType.result_processor dialect coltype self = (self, Ok process) /\
         srid self = Some n /\
         Py.int (arg (VInt (-1)) s) = Ok n /\
         process None self = (self, Ok None) /\
         forall bytes,
           process (Some bytes) self = (self, Ok (Some (mk_WKBElement bytes n)))) /\
    (forall si self,
       call Raster None None None si None = Ok self ->
       exists process,
         Raster.result_processor dialect coltype self = (self, Ok process) /\
         process None self = (self, Ok None) /\
         forall bytes,
           process (Some bytes) self = (self, Ok (Some (mk_RasterElement bytes)))).
Proof.
  intros D C dialect coltype. split.
  - intros cls g s d si m self Hcls%base_not_Raster Hcall.
    apply call_GISType_Ok in Hcall as (kind & n & _ & Hint & ->); [|exact Hcls].
    exists _GISType.process, n. repeat split; assumption.
  - intros si self _. exists Raster.process. repeat split.
Qed.

Lemma result_processor_decodes_witness :
  exists process n,
    _GISType.result_processor tt tt (descriptor Geography "point" 4326 None None None)
    = (descriptor Geography "point" 4326 None None None, Ok process) /\
    srid (descriptor Geography "point" 4326 None None None) = Some n /\
    Py.int (arg (VInt (-1)) (Some (VStr "4326"))) = Ok n /\
    process None (descriptor Geography "point" 4326 None None None)
    = (descriptor Geography "point" 4326 None None None, Ok None) /\
    forall bytes,
      process (Some bytes) (descriptor Geography "point" 4326 None None None)
      = (descriptor Geography "point" 4326 None None None,
         Ok (Some (mk_WKBElement bytes n))).
Proof.
  apply (proj1 (result_processor_decodes unit unit tt tt) Geography
           (Some (VStr "point")) (Some (VStr "4326")) None None None).
  - reflexivity.
  - vm_compute. reflexivity.
Defined.

(** ** The expression hooks *)

Lemma GISType_bind_expression_eq self bindvalue f :
  class_attr (ob_class self) "from_text" = Some (Some f) ->
  _GISType.bind_expression bindvalue self =
  (self, Ok (Func f [bindvalue] (Some self))).
Proof.
  intros Hf. unfold _GISType.bind_expression, bind, getattr_class.
  now rewrite Hf.
Qed.

(** C2: for every bind value, [bind_expression] on a [Geometry] instance
    returns the call of [ST_GeomFromText] on that value, and on a [Geography]
    instance the call of [ST_GeogFromText], each tagged with the instance
    itself as its type.  The function name is the [from_text] attribute of the
    class of the instance, whatever the bind value is. *)
Theorem bind_expression_from_text :
  forall (self : object) (bindvalue : expr),
    (ob_class self = Geometry ->
     bind_expression bindvalue self =
     (self, Ok (Some (Func "ST_GeomFromText" [bindvalue] (Some self))))) /\
    (ob_class self = Geography ->
     bind_expression bindvalue self =
     (self, Ok (Some (Func "ST_GeogFromText" [bindvalue] (Some self))))) /\
    (forall f,
       class_attr (ob_class self) "from_text" = Some (Some f) ->
       _GISType.bind_expression bindvalue self =
       (self, Ok (Func f [bindvalue] (Some self)))).
Proof.
  intros self bindvalue.
  assert (Hhook : forall f,
    class_attr (ob_class self) "from_text" = Some (Some f) ->
    bind_expression bindvalue self = (self, Ok (Some (Func f [bindvalue] (Some self))))).
  { intros f Hf. unfold bind_expression. rewrite resolve_bind_expression.
    destruct (ob_class self) eqn:Hcls;
      try (rewrite class_attr_from_text in Hf; discriminate);
      unfold bind; rewrite (GISType_bind_expression_eq _ _ f) by (now rewrite Hcls);
      reflexivity. }
  split; [|split].
  - intros Hcls. apply Hhook. now rewrite Hcls, class_attr_from_text.
  - intros Hcls. apply Hhook. now rewrite Hcls, class_attr_from_text.
  - intros f. apply GISType_bind_expression_eq.
Qed.

Lemma bind_expression_from_text_witness :
  bind_expression (BindParameter "geom_1")
    (descriptor Geometry "POINT" 4326 None None None)
  = (descriptor Geometry "POINT" 4326 None None None,
     Ok (Some (Func "ST_GeomFromText" [BindParameter "geom_1"]
                 (Some (descriptor Geometry "POINT" 4326 None None None))))).
Proof.
  apply (proj1 (bind_expression_from_text
                  (descriptor Geometry "POINT" 4326 None None None)
                  (BindParameter "geom_1"))).
  reflexivity.
Defined.




(** ** Raster *)

(** C6: whatever [spatial_index] is passed, [Raster(spatial_index)] returns a
    descriptor whose [get_col_spec] is ["raster"].  No class body of
    [Raster] defines [bind_expression] or [column_expression]: both hooks
    fall through to the framework default and leave the expression as it is,
    and the decoding closure hands the fetched bytes over unchanged. *)
Theorem raster_col_spec_and_no_expression_hooks :
  forall (si : option value),
    exists self,
      call Raster None None None si None = Ok self /\
      spatial_index self = Some (arg (VBool true) si) /\
      get_col_spec self = (self, Ok "raster") /\
      resolve Raster "bind_expression" = None /\
      resolve Raster "column_expression" = None /\
      (forall e, bind_expression e self = (self, Ok None)) /\
      (forall e, column_expression e self = (self, Ok None)) /\
      (forall bytes,
         Raster.process (Some bytes) self =
         (self, Ok (Some (mk_RasterElement bytes)))).
Proof.
  intros si.
  exists (mk_object Raster None None None (Some (arg (VBool true) si)) None).
  split; [apply call_Raster|].
  repeat split.
Qed.

(** ** Descriptors are not modified by their hooks *)

Lemma GISType_get_col_spec_state self : fst (_GISType.get_col_spec self) = self.
Proof.
  unfold _GISType.get_col_spec, bind, getattr_class, getattr, ret.
  destruct (class_attr (ob_class self) "name");
    destruct (geometry_type self); destruct (srid self); reflexivity.
Qed.

Lemma GISType_bind_expression_state bindvalue self :
  fst (_GISType.bind_expression bindvalue self) = self.
Proof.
  unfold _GISType.bind_expression, bind, getattr_class.
  destruct (class_attr (ob_class self) "from_text") as [[f|]|]; reflexivity.
Qed.

Lemma GISType_process_state value self : fst (_GISType.process value self) = self.
Proof.
  destruct value as [v|]; [|reflexivity].
  unfold _GISType.process, bind, getattr. destruct (srid self); reflexivity.
Qed.

(** C9: each hook of a descriptor, and the decoding closure that
    [result_processor] returns, leaves [self] as it found it: every attribute
    ([geometry_type], [srid], [dimension], [spatial_index], [management])
    holds the same value afterwards, whether the hook returns or raises. *)
Theorem hooks_leave_self_unchanged :
  forall (D C : Type) (dialect : D) (coltype : C) (self : object),
    fst (get_col_spec self) = self /\
    fst (_GISType.get_col_spec self) = self /\
    fst (Raster.get_col_spec self) = self /\
    (forall col, fst (column_expression col self) = self) /\
    (forall col, fst (_GISType.column_expression col self) = self) /\
    (forall bindvalue, fst (bind_expression bindvalue self) = self) /\
    (forall bindvalue, fst (_GISType.bind_expression bindvalue self) = self) /\
    _GISType.result_processor dialect coltype self = (self, Ok _GISType.process) /\
    Raster.result_processor dialect coltype self = (self, Ok Raster.process) /\
    (forall value, fst (_GISType.process value self) = self) /\
    (forall value, fst (Raster.process value self) = self).
Proof.
  intros D C dialect coltype self.
  repeat split.
  - unfold get_col_spec. rewrite resolve_get_col_spec.
    destruct (ob_class self);
      first [apply GISType_get_col_spec_state | reflexivity].
  - apply GISType_get_col_spec_state.
  - intros col. unfold column_expression. rewrite resolve_column_expression.
    destruct (ob_class self); reflexivity.
  - intros b. unfold bind_expression. rewrite resolve_bind_expression.
    pose proof (GISType_bind_expression_state b self) as Hb.
    destruct (ob_class self); try reflexivity;
      (unfold bind;
       destruct (_GISType.bind_expression b self) as [self' [e|x]];
       simpl in *; exact Hb).
  - intros b. apply GISType_bind_expression_state.
  - intros v. apply GISType_process_state.
  - intros [v|]; reflexivity.
Qed.

(** ** Failure of the SRID coercion *)

(** When [int] raises, [__init__] has assigned [geometry_type] only; the call
    of the class drops that object. *)
Lemma init_int_raises_state cls kind s d si m e :
  Py.int (arg (VInt (-1)) s) = Raise e ->
  _GISType.__init__ (Some (VStr kind)) s d si m (new_object cls) =
  (mk_object cls (Some (Py.upper kind)) None None None None, Raise e).
Proof. intros Hint. rewrite GISType_init_run. simpl. now rewrite Hint. Qed.

(** C5: when [int] raises on the [srid] argument, the call of [Geometry] or
    [Geography] raises and returns no object; with a string for the geometry
    kind the exception is the one [int] raised, [ValueError] for
    [srid="not-a-number"].  The failure belongs to the construction: every
    descriptor that a call does return has its five attributes assigned, its
    [srid] is the integer that [int] returned, and none of its hooks
    raises. *)
Theorem srid_not_coercible_raises_at_construction :
  (forall cls g s d si m e,
     base cls = Some _GISType ->
     Py.int (arg (VInt (-1)) s) = Raise e ->
     exists e',
       call cls g s d si m = Raise e' /\
       (forall kind, arg (VStr "GEOMETRY") g = VStr kind -> e' = e)) /\
  (forall cls g d si m,
     base cls = Some _GISType ->
     exists e', call cls g (Some (VStr "not-a-number")) d si m = Raise e') /\
  (forall cls d si m,
     base cls = Some _GISType ->
     call cls None (Some (VStr "not-a-number")) d si m = Raise ValueError) /\
  (forall cls g s d si m self,
     base cls = Some _GISType ->
     call cls g s d si m = Ok self ->
     (exists kind n dim idx mgmt,
        Py.int (arg (VInt (-1)) s) = Ok n /\
        self = mk_object cls (Some kind) (Some n) (Some dim) (Some idx) (Some mgmt)) /\
     is_ok (snd (get_col_spec self)) = true /\
     (forall col, is_ok (snd (column_expression col self)) = true) /\
     (forall bindvalue, is_ok (snd (bind_expression bindvalue self)) = true) /\
     (forall value, is_ok (snd (_GISType.process value self)) = true)).
Proof.
  assert (Hraise : forall cls g s d si m e,
    base cls = Some _GISType ->
    Py.int (arg (VInt (-1)) s) = Raise e ->
    exists e',
      call cls g s d si m = Raise e' /\
      (forall kind, arg (VStr "GEOMETRY") g = VStr kind -> e' = e)).
  { intros cls g s d si m e Hcls%base_not_Raster Hint.
    rewrite call_GISType by exact Hcls.
    unfold instantiate. rewrite GISType_init_run, Hint.
    destruct (arg (VStr "GEOMETRY") g) as [| | | |kind]; simpl;
      eexists; (split; [reflexivity|]); intros kind' Hk;
      first [discriminate Hk | reflexivity]. }
  split; [exact Hraise|]. split; [|split].
  - intros cls g d si m Hbase.
    destruct (Hraise cls g (Some (VStr "not-a-number")) d si m ValueError Hbase
                eq_refl) as (e' & He' & _).
    now exists e'.
  - intros cls d si m Hcls%base_not_Raster.
    now apply (call_GISType_int_raises cls None "GEOMETRY").
  - intros cls g s d si m self Hbase Hcall.
    pose proof (base_not_Raster _ Hbase) as Hcls.
    apply call_GISType_Ok in Hcall as (kind & n & _ & Hint & ->); [|exact Hcls].
    split; [do 5 eexists; split; [exact Hint | reflexivity]|].
    destruct cls; try discriminate; repeat split;
      try (intros [v|]; reflexivity).
Qed.

Lemma srid_not_coercible_raises_at_construction_witness :
  exists e',
    call Geometry (Some (VStr "POINT")) (Some (VStr "43 26")) None None None
    = Raise e' /\
    (forall kind, arg (VStr "GEOMETRY") (Some (VStr "POINT")) = VStr kind ->
                  e' = ValueError).
Proof.
  apply (proj1 srid_not_coercible_raises_at_construction Geometry
           (Some (VStr "POINT")) (Some (VStr "43 26")) None None None ValueError).
  - reflexivity.
  - vm_compute. reflexivity.
Defined.

(** ** Registration *)

Section RegistrationFacts.

Context {C : Type}.

Implicit Types (t : gmap string C) (key : string).

Lemma register_lookup (a b c : C) t key :
  register a b c t !! key =
  if decide (key = "raster") then Some c
  else if decide (key = "geography") then Some b
  else if decide (key = "geometry") then Some a
  else t !! key.
Proof.
  unfold register. rewrite !lookup_insert.
  repeat case_decide; congruence.
Qed.

Lemma filter_key_absent (l : list (string * C)) key :
  key ∉ l.*1 -> filter (fun kv => kv.1 = key) l = [].
Proof.
  induction l as [|[k w] l IH]; intros Hk; [reflexivity|].
  simpl in Hk. apply not_elem_of_cons in Hk as [Hne Hk].
  rewrite filter_cons_False by (simpl; congruence).
  now apply IH.
Qed.

Lemma filter_key_unique (l : list (string * C)) key (v : C) :
  NoDup l.*1 -> (key, v) ∈ l ->
  length (filter (fun kv => kv.1 = key) l) = 1%nat.
Proof.
  induction l as [|[k w] l IH]; intros Hnd Hin.
  - now apply elem_of_nil in Hin.
  - simpl in Hnd. apply NoDup_cons in Hnd as [Hk Hnd].
    destruct (decide (k = key)) as [->|Hne].
    + rewrite filter_cons_True by reflexivity.
      now rewrite filter_key_absent.
    + rewrite filter_cons_False by (simpl; congruence).
      apply elem_of_cons in Hin as [Heq | Hin]; [congruence|].
      now apply IH.
Qed.

Lemma entries_lookup_Some t key (v : C) : t !! key = Some v -> entries key t = 1%nat.
Proof.
  intros Hv. unfold entries.
  apply (filter_key_unique _ key v).
  - apply NoDup_fst_map_to_list.
  - now apply elem_of_map_to_list.
Qed.

End RegistrationFacts.

(** C8: registering a second time, with the class objects [a2], [b2], [c2]
    of the second execution, gives the table that a single registration of
    them gives: each of the keys ["geometry"], ["geography"], ["raster"] is
    stored exactly once and maps to the class of the second registration, the
    keys of the table are those three and the ones present before, and the
    second registration adds no entry.  Registering the same classes again
    changes nothing.  [register] is a total function: no call of it raises. *)
Theorem register_twice :
  forall (C : Type) (a1 b1 c1 a2 b2 c2 : C) (ischema_names : gmap string C),
    let once := register a1 b1 c1 ischema_names in
    let twice := register a2 b2 c2 once in
    twice = register a2 b2 c2 ischema_names /\
    twice !! "geometry" = Some a2 /\
    twice !! "geography" = Some b2 /\
    twice !! "raster" = Some c2 /\
    entries "geometry" twice = 1%nat /\
    entries "geography" twice = 1%nat /\
    entries "raster" twice = 1%nat /\
    dom twice = {["geometry"; "geography"; "raster"]} ∪ dom ischema_names /\
    size twice = size once /\
    register a2 b2 c2 twice = twice.
Proof.
  intros C a1 b1 c1 a2 b2 c2 t once twice.
  assert (Hg : twice !! "geometry" = Some a2) by (subst twice; now rewrite register_lookup).
  assert (Hgg : twice !! "geography" = Some b2) by (subst twice; now rewrite register_lookup).
  assert (Hr : twice !! "raster" = Some c2) by (subst twice; now rewrite register_lookup).
  assert (Hdom : forall (a b c : C) (u : gmap string C),
    dom (register a b c u) = {["geometry"; "geography"; "raster"]} ∪ dom u).
  { intros a b c u. unfold register. rewrite !dom_insert_L. set_solver. }
  repeat split; try assumption.
  - apply map_eq. intros k. subst twice once. rewrite !register_lookup.
    repeat case_decide; reflexivity.
  - now apply (entries_lookup_Some _ _ a2).
  - now apply (entries_lookup_Some _ _ b2).
  - now apply (entries_lookup_Some _ _ c2).
  - subst twice once. rewrite !Hdom. set_solver.
  - rewrite <- !size_dom. f_equal. subst twice once. rewrite !Hdom. set_solver.
  - apply map_eq. intros k. subst twice once. rewrite !register_lookup.
    repeat case_decide; reflexivity.
Qed.

(** ** What [int] accepts *)

Lemma parse_digits_uint d : forall acc,
  Py.parse_digits acc (NilEmpty.string_of_uint d) = Some (uint_value acc d).
Proof.
  induction d as [|d IH|d IH|d IH|d IH|d IH|d IH|d IH|d IH|d IH|d IH];
    intros acc; [reflexivity | ..]; apply IH.
Qed.

Lemma uint_value_pos d : forall p,
  uint_value (Z.pos p) d = Z.pos (Pos.of_uint_acc d p).
Proof.
  induction d as [|d IH|d IH|d IH|d IH|d IH|d IH|d IH|d IH|d IH|d IH];
    intros p; [reflexivity | ..]; simpl; rewrite <- IH; f_equal; lia.
Qed.

Lemma uint_value_zero d : uint_value 0 d = Z.of_N (Pos.of_uint d).
Proof.
  induction d as [|d IH|d IH|d IH|d IH|d IH|d IH|d IH|d IH|d IH|d IH];
    [reflexivity | exact IH | ..]; simpl; apply uint_value_pos.
Qed.

Lemma parse_int_leading_digit c r d n :
  Py.digit_of c = Some d ->
  Py.parse_digits 0 (String c r) = Some n ->
  Py.parse_int (String c r) = Some n /\
  Py.parse_int (String "-" (String c r)) = Some (- n).
Proof.
  intros Hd Hp.
  destruct c as [[] [] [] [] [] [] [] []];
    try (vm_compute in Hd; discriminate Hd);
    (split; unfold Py.parse_int;
     cbv -[Py.parse_digits Z.opp]; cbv -[Py.parse_digits Z.opp] in Hp;
     rewrite Hp; reflexivity).
Qed.

Lemma string_of_uint_leading_digit u :
  u <> Decimal.Nil ->
  exists c r d, NilEmpty.string_of_uint u = String c r /\ Py.digit_of c = Some d.
Proof.
  destruct u; [congruence | ..]; intros _; do 3 eexists; split; reflexivity.
Qed.

Lemma parse_int_numeral p :
  Py.parse_int (NilEmpty.string_of_uint (Pos.to_uint p)) = Some (Z.pos p) /\
  Py.parse_int (String "-" (NilEmpty.string_of_uint (Pos.to_uint p))) = Some (Z.neg p).
Proof.
  assert (Hparse : Py.parse_digits 0 (NilEmpty.string_of_uint (Pos.to_uint p))
                   = Some (Z.pos p)).
  { rewrite parse_digits_uint, uint_value_zero, DecimalPos.Unsigned.of_to.
    reflexivity. }
  destruct (string_of_uint_leading_digit _ (DecimalPos.Unsigned.to_uint_nonnil p))
    as (c & r & d & Hs & Hd).
  rewrite Hs in *.
  exact (parse_int_leading_digit c r d (Z.pos p) Hd Hparse).
Qed.

(** [int] reads back the decimal numeral that [%d] prints. *)
Lemma int_format_d n : Py.int (VStr (Py.format_d n)) = Ok n.
Proof.
  unfold Py.int, Py.format_d.
  destruct n as [|p|p]; simpl Z.to_int; simpl NilEmpty.string_of_int.
  - reflexivity.
  - now rewrite (proj1 (parse_int_numeral p)).
  - now rewrite (proj2 (parse_int_numeral p)).
Qed.




(** * Further properties of the constructors *)

Lemma call_GISType_upper_raises cls g s d si m e :
  cls <> Raster ->
  Py.call_upper (arg (VStr "GEOMETRY") g) = Raise e ->
  call cls g s d si m = Raise e /\
  _GISType.__init__ g s d si m (new_object cls) = (new_object cls, Raise e).
Proof.
  intros Hcls Hupper. rewrite call_GISType by exact Hcls.
  unfold instantiate. rewrite GISType_init_run, Hupper. split; reflexivity.
Qed.

(** X1: the call of [Geometry] or [Geography] returns a descriptor exactly
    when [upper] returns on the geometry kind and [int] returns on the SRID:
    nothing else in [__init__] can raise.  Whether the call succeeds is the
    same for every [dimension], [spatial_index] and [management]. *)
Theorem call_succeeds_iff :
  forall cls g s d si m,
    base cls = Some _GISType ->
    (is_ok (call cls g s d si m) = true <->
     is_ok (Py.call_upper (arg (VStr "GEOMETRY") g)) = true /\
     is_ok (Py.int (arg (VInt (-1)) s)) = true) /\
    (forall d' si' m',
       is_ok (call cls g s d' si' m') = is_ok (call cls g s d si m)).
Proof.
  intros cls g s d si m Hcls%base_not_Raster.
  assert (Hok : forall d0 si0 m0,
    is_ok (call cls g s d0 si0 m0) =
    is_ok (Py.call_upper (arg (VStr "GEOMETRY") g)) &&
    is_ok (Py.int (arg (VInt (-1)) s))).
  { intros d0 si0 m0. rewrite call_GISType by exact Hcls.
    unfold instantiate. rewrite GISType_init_run.
    destruct (Py.call_upper (arg (VStr "GEOMETRY") g)); simpl; try reflexivity.
    destruct (Py.int (arg (VInt (-1)) s)); reflexivity. }
  split.
  - rewrite Hok. apply andb_true_iff.
  - intros d' si' m'. now rewrite !Hok.
Qed.

Lemma call_succeeds_iff_witness :
  is_ok (call Geography (Some (VStr "point")) (Some (VFloat (S754_zero true)))
           (Some (VStr "three")) None None) = true <->
  is_ok (Py.call_upper (arg (VStr "GEOMETRY") (Some (VStr "point")))) = true /\
  is_ok (Py.int (arg (VInt (-1)) (Some (VFloat (S754_zero true))))) = true.
Proof.
  apply (call_succeeds_iff Geography (Some (VStr "point"))
           (Some (VFloat (S754_zero true))) (Some (VStr "three")) None None).
  reflexivity.
Defined.

(** X2: when [upper] raises on the geometry kind, the call raises that
    exception whatever the SRID is, coercible or not: [upper] is called
    before [int], and [__init__] stops before it has assigned any attribute.
    [None], a bool, an int and a float have no [upper] method, so for these
    kinds the exception is [AttributeError]. *)
Theorem kind_checked_before_srid :
  forall cls g s d si m e,
    base cls = Some _GISType ->
    Py.call_upper (arg (VStr "GEOMETRY") g) = Raise e ->
    call cls g s d si m = Raise e /\
    _GISType.__init__ g s d si m (new_object cls) = (new_object cls, Raise e) /\
    (forall b n f,
       call cls (Some VNone) s d si m = Raise AttributeError /\
       call cls (Some (VBool b)) s d si m = Raise AttributeError /\
       call cls (Some (VInt n)) s d si m = Raise AttributeError /\
       call cls (Some (VFloat f)) s d si m = Raise AttributeError).
Proof.
  intros cls g s d si m e Hcls%base_not_Raster Hupper.
  destruct (call_GISType_upper_raises cls g s d si m e Hcls Hupper) as [Hcall Hinit].
  split; [exact Hcall|]. split; [exact Hinit|].
  intros b n f. repeat split;
    now apply (call_GISType_upper_raises cls _ s d si m AttributeError).
Qed.

Lemma kind_checked_before_srid_witness :
  call Geometry (Some (VInt 7)) (Some (VStr "not-a-number")) None None None
  = Raise AttributeError /\
  _GISType.__init__ (Some (VInt 7)) (Some (VStr "not-a-number")) None None None
    (new_object Geometry)
  = (new_object Geometry, Raise AttributeError) /\
  (forall b n f,
     call Geometry (Some VNone) (Some (VStr "not-a-number")) None None None
     = Raise AttributeError /\
     call Geometry (Some (VBool b)) (Some (VStr "not-a-number")) None None None
     = Raise AttributeError /\
     call Geometry (Some (VInt n)) (Some (VStr "not-a-number")) None None None
     = Raise AttributeError /\
     call Geometry (Some (VFloat f)) (Some (VStr "not-a-number")) None None None
     = Raise AttributeError).
Proof.
  apply (kind_checked_before_srid Geometry (Some (VInt 7))
           (Some (VStr "not-a-number")) None None None AttributeError).
  - reflexivity.
  - reflexivity.
Defined.

(** X3: with a string for the geometry kind, the exception of a failing call
    tells what was wrong with the SRID: [TypeError] for [None], [ValueError]
    for NaN and for every string that [int] does not accept, [OverflowError]
    for an infinity of either sign. *)
Theorem srid_exception_by_kind_of_value :
  forall cls kind d si m,
    base cls = Some _GISType ->
    call cls (Some (VStr kind)) (Some VNone) d si m = Raise TypeError /\
    call cls (Some (VStr kind)) (Some (VFloat S754_nan)) d si m = Raise ValueError /\
    (forall sign,
       call cls (Some (VStr kind)) (Some (VFloat (S754_infinity sign))) d si m
       = Raise OverflowError) /\
    (forall text,
       is_ok (Py.int (VStr text)) = false ->
       call cls (Some (VStr kind)) (Some (VStr text)) d si m = Raise ValueError).
Proof.
  intros cls kind d si m Hcls%base_not_Raster.
  repeat split.
  - now apply (call_GISType_int_raises cls _ kind).
  - now apply (call_GISType_int_raises cls _ kind).
  - intros sign. now apply (call_GISType_int_raises cls _ kind).
  - intros text Hint. apply (call_GISType_int_raises cls _ kind); try easy.
    simpl in *. destruct (Py.parse_int text); [discriminate Hint | reflexivity].
Qed.

Lemma srid_exception_by_kind_of_value_witness :
  call Geography (Some (VStr "POINT")) (Some VNone) None None None = Raise TypeError /\
  call Geography (Some (VStr "POINT")) (Some (VFloat S754_nan)) None None None
  = Raise ValueError /\
  (forall sign,
     call Geography (Some (VStr "POINT")) (Some (VFloat (S754_infinity sign)))
       None None None = Raise OverflowError) /\
  (forall text,
     is_ok (Py.int (VStr text)) = false ->
     call Geography (Some (VStr "POINT")) (Some (VStr text)) None None None
     = Raise ValueError).
Proof.
  apply (srid_exception_by_kind_of_value Geography "POINT" None None None).
  reflexivity.
Defined.

(** X4: [dimension], [spatial_index] and [management] are stored as they are
    passed, whatever value each is, and as [2], [True] and [False] when left
    out; a [Raster] descriptor stores its [spatial_index] in the same way and
    has no [geometry_type], [srid], [dimension] or [management]. *)
Theorem init_stores_other_arguments_verbatim :
  (forall cls g s d si m self,
     base cls = Some _GISType ->
     call cls g s d si m = Ok self ->
     ob_class self = cls /\
     dimension self = Some (arg (VInt 2) d) /\
     spatial_index self = Some (arg (VBool true) si) /\
     management self = Some (arg (VBool false) m)) /\
  (forall si self,
     call Raster None None None si None = Ok self ->
     self = mk_object Raster None None None (Some (arg (VBool true) si)) None).
Proof.
  split.
  - intros cls g s d si m self Hcls%base_not_Raster Hcall.
    apply call_GISType_Ok in Hcall as (kind & n & _ & _ & ->); [|exact Hcls].
    repeat split.
  - intros si self. rewrite call_Raster. now intros [= <-].
Qed.

Lemma init_stores_other_arguments_verbatim_witness :
  ob_class (descriptor Geometry "POINT" 4326 (Some (VStr "3D")) (Some VNone) None)
  = Geometry /\
  dimension (descriptor Geometry "POINT" 4326 (Some (VStr "3D")) (Some VNone) None)
  = Some (arg (VInt 2) (Some (VStr "3D"))) /\
  spatial_index (descriptor Geometry "POINT" 4326 (Some (VStr "3D")) (Some VNone) None)
  = Some (arg (VBool true) (Some VNone)) /\
  management (descriptor Geometry "POINT" 4326 (Some (VStr "3D")) (Some VNone) None)
  = Some (arg (VBool false) None).
Proof.
  apply (proj1 init_stores_other_arguments_verbatim Geometry
           (Some (VStr "Point")) (Some (VStr "4326")) (Some (VStr "3D"))
           (Some VNone) None).
  - reflexivity.
  - vm_compute. reflexivity.
Defined.

(** X5: calling the class again with the attributes that a descriptor stores
    returns the same descriptor: upper-casing an upper-cased kind and
    coercing a coerced SRID change nothing. *)
Theorem call_on_stored_attributes :
  forall cls g s d si m self,
    base cls = Some _GISType ->
    call cls g s d si m = Ok self ->
    exists kind n dim idx mgmt,
      self = mk_object cls (Some kind) (Some n) (Some dim) (Some idx) (Some mgmt) /\
      call cls (Some (VStr kind)) (Some (VInt n)) (Some dim) (Some idx) (Some mgmt)
      = Ok self.
Proof.
  intros cls g s d si m self Hcls%base_not_Raster Hcall.
  apply call_GISType_Ok in Hcall as (kind & n & _ & _ & ->); [|exact Hcls].
  exists (Py.upper kind), n, (arg (VInt 2) d), (arg (VBool true) si),
    (arg (VBool false) m).
  split; [reflexivity|].
  rewrite (call_GISType_str cls (Py.upper kind) (Some (VInt n)) _ _ _ n Hcls eq_refl).
  unfold descriptor. simpl. now rewrite upper_idempotent.
Qed.

Lemma call_on_stored_attributes_witness :
  exists kind n dim idx mgmt,
    descriptor Geography "LineString" 4326 None (Some (VBool false)) None
    = mk_object Geography (Some kind) (Some n) (Some dim) (Some idx) (Some mgmt) /\
    call Geography (Some (VStr kind)) (Some (VInt n)) (Some dim) (Some idx) (Some mgmt)
    = Ok (descriptor Geography "LineString" 4326 None (Some (VBool false)) None).
Proof.
  apply (call_on_stored_attributes Geography (Some (VStr "LineString"))
           (Some (VStr " 4326 ")) None (Some (VBool false)) None).
  - reflexivity.
  - vm_compute. reflexivity.
Defined.

(** * Further properties of the DDL hook *)

Lemma has_char_append c a b : has_char c (a +:+ String c b) = true.
Proof.
  induction a as [|c' a IH]; simpl.
  - now rewrite Ascii.eqb_refl.
  - rewrite IH. apply orb_true_r.
Qed.

(** A string is cut in one way only at the last occurrence of [c]. *)
Lemma append_at_last_char c : forall a1 a2 b1 b2,
  has_char c b1 = false ->
  has_char c b2 = false ->
  a1 +:+ String c b1 = a2 +:+ String c b2 ->
  a1 = a2 /\ b1 = b2.
Proof.
  induction a1 as [|x a1 IH]; intros [|y a2] b1 b2 Hb1 Hb2; simpl.
  - now intros [= ->].
  - intros [= <- ->]. now rewrite has_char_append in Hb1.
  - intros [= -> <-]. now rewrite has_char_append in Hb2.
  - intros [= -> H]. destruct (IH _ _ _ Hb1 Hb2 H) as [-> ->]. easy.
Qed.

Lemma string_of_uint_no_comma u : has_char "," (NilEmpty.string_of_uint u) = false.
Proof. induction u; simpl; easy. Qed.

Lemma string_of_uint_no_paren u : has_char ")" (NilEmpty.string_of_uint u) = false.
Proof. induction u; simpl; easy. Qed.

Lemma format_d_no_comma n : has_char "," (Py.format_d n) = false.
Proof.
  unfold Py.format_d, Z.to_int, NilEmpty.string_of_int.
  destruct n as [|p|p]; [reflexivity | apply string_of_uint_no_comma |].
  change (has_char "," (NilEmpty.string_of_uint (Pos.to_uint p)) = false).
  apply string_of_uint_no_comma.
Qed.

Lemma format_d_no_paren n : has_char ")" (Py.format_d n) = false.
Proof.
  unfold Py.format_d, Z.to_int, NilEmpty.string_of_int.
  destruct n as [|p|p]; [reflexivity | apply string_of_uint_no_paren |].
  change (has_char ")" (NilEmpty.string_of_uint (Pos.to_uint p)) = false).
  apply string_of_uint_no_paren.
Qed.

Lemma has_char_append_false c a b :
  has_char c a = false -> has_char c b = false -> has_char c (a +:+ b) = false.
Proof.
  induction a as [|x a IH]; simpl; [easy|].
  intros [Hx Ha]%orb_false_iff Hb. rewrite Hx. now apply IH.
Qed.

Lemma format_d_inj n1 n2 : Py.format_d n1 = Py.format_d n2 -> n1 = n2.
Proof.
  intros H. pose proof (int_format_d n1) as H1. rewrite H, int_format_d in H1.
  now injection H1.
Qed.

(** The part of the column specification after the type name determines the
    kind and the SRID. *)
Lemma col_spec_tail_inj kind1 n1 kind2 n2 :
  kind1 +:+ "," +:+ Py.format_d n1 +:+ ")" =
  kind2 +:+ "," +:+ Py.format_d n2 +:+ ")" ->
  kind1 = kind2 /\ n1 = n2.
Proof.
  intros H.
  apply (append_at_last_char ",") in H as [Hkind Hd].
  - split; [exact Hkind|].
    apply (append_at_last_char ")") in Hd as [Hd _]; [|reflexivity..].
    now apply format_d_inj.
  - apply has_char_append_false; [apply format_d_no_comma | reflexivity].
  - apply has_char_append_false; [apply format_d_no_comma | reflexivity].
Qed.

(** X6: two constructed [Geometry] or [Geography] descriptors with the same
    column specification have the same class, the same geometry kind and the
    same SRID, also when a kind contains commas or parentheses. *)
Theorem get_col_spec_injective :
  forall cls1 g1 s1 d1 si1 m1 self1 cls2 g2 s2 d2 si2 m2 self2,
    base cls1 = Some _GISType ->
    base cls2 = Some _GISType ->
    call cls1 g1 s1 d1 si1 m1 = Ok self1 ->
    call cls2 g2 s2 d2 si2 m2 = Ok self2 ->
    snd (get_col_spec self1) = snd (get_col_spec self2) ->
    cls1 = cls2 /\
    geometry_type self1 = geometry_type self2 /\
    srid self1 = srid self2.
Proof.
  intros cls1 g1 s1 d1 si1 m1 self1 cls2 g2 s2 d2 si2 m2 self2
    Hbase1 Hbase2 Hcall1 Hcall2.
  pose proof (base_not_Raster _ Hbase1) as Hcls1.
  pose proof (base_not_Raster _ Hbase2) as Hcls2.
  apply call_GISType_Ok in Hcall1 as (kind1 & n1 & _ & _ & ->); [|exact Hcls1].
  apply call_GISType_Ok in Hcall2 as (kind2 & n2 & _ & _ & ->); [|exact Hcls2].
  destruct cls1; try discriminate Hbase1; destruct cls2; try discriminate Hbase2;
    rewrite (get_col_spec_descriptor _ kind1 n1 d1 si1 m1 _ Hcls1
               (class_attr_name _));
    rewrite (get_col_spec_descriptor _ kind2 n2 d2 si2 m2 _ Hcls2
               (class_attr_name _));
    simpl snd; intros [= Hspec]; try discriminate Hspec.
  - apply (col_spec_tail_inj (Py.upper kind1) n1 (Py.upper kind2) n2) in Hspec
      as [Hkind Hn].
    unfold descriptor. simpl. now rewrite Hkind, Hn.
  - apply (col_spec_tail_inj (Py.upper kind1) n1 (Py.upper kind2) n2) in Hspec
      as [Hkind Hn].
    unfold descriptor. simpl. now rewrite Hkind, Hn.
Qed.

Lemma get_col_spec_injective_witness :
  Geometry = Geometry /\
  geometry_type (descriptor Geometry "a,1)" 2 None None None) =
  geometry_type (descriptor Geometry "A,1)" 2 (Some (VInt 3)) None None) /\
  srid (descriptor Geometry "a,1)" 2 None None None) =
  srid (descriptor Geometry "A,1)" 2 (Some (VInt 3)) None None).
Proof.
  apply (get_col_spec_injective
           Geometry (Some (VStr "a,1)")) (Some (VInt 2)) None None None _
           Geometry (Some (VStr "A,1)")) (Some (VStr "+2")) (Some (VInt 3)) None None _).
  - reflexivity.
  - reflexivity.
  - vm_compute. reflexivity.
  - vm_compute. reflexivity.
  - vm_compute. reflexivity.
Defined.

Lemma get_col_spec_GISType self :
  ob_class self <> Raster -> get_col_spec self = _GISType.get_col_spec self.
Proof.
  intros Hcls. unfold get_col_spec. rewrite resolve_get_col_spec.
  now destruct (ob_class self).
Qed.

(** X7: the column specification is read from the class, [geometry_type] and
    [srid] alone: two objects that agree on these give the same answer,
    whatever their [dimension], [spatial_index] and [management] are.  On an
    instance of [Geometry] or [Geography] the hook returns exactly when
    [geometry_type] and [srid] are assigned, and raises otherwise. *)
Theorem get_col_spec_reads_kind_and_srid :
  forall self self',
    ob_class self = ob_class self' ->
    geometry_type self = geometry_type self' ->
    srid self = srid self' ->
    snd (get_col_spec self) = snd (get_col_spec self') /\
    (base (ob_class self) = Some _GISType ->
     (is_ok (snd (get_col_spec self)) = true <->
      is_Some (geometry_type self) /\ is_Some (srid self))).
Proof.
  intros self self' Hcls Hkind Hsrid. split.
  - destruct self as [c k n d si m], self' as [c' k' n' d' si' m'].
    simpl in Hcls, Hkind, Hsrid. subst c' k' n'.
    unfold get_col_spec. cbn [ob_class]. rewrite resolve_get_col_spec.
    destruct c; try reflexivity;
      unfold _GISType.get_col_spec, bind, getattr_class, getattr, ret;
      cbn [ob_class geometry_type srid]; rewrite class_attr_name;
      destruct k; destruct n; reflexivity.
  - intros Hbase%base_not_Raster. rewrite (get_col_spec_GISType _ Hbase).
    unfold _GISType.get_col_spec, bind, getattr_class, getattr, ret.
    rewrite class_attr_name.
    destruct (ob_class self); try congruence;
      destruct (geometry_type self); destruct (srid self); simpl;
      split; try discriminate; try (intros [[? [=]] [? [=]]]; fail);
      try (intros [[? ?] [? [=]]]; fail); try (intros [[? [=]] ?]; fail);
      intros _; repeat split; eauto.
Qed.

Lemma get_col_spec_reads_kind_and_srid_witness :
  snd (get_col_spec (descriptor Geometry "POINT" 4326 (Some (VInt 3)) None None)) =
  snd (get_col_spec (descriptor Geometry "POINT" 4326 None (Some (VBool false))
                       (Some (VBool true)))) /\
  (base Geometry = Some _GISType ->
   (is_ok (snd (get_col_spec
                  (descriptor Geometry "POINT" 4326 (Some (VInt 3)) None None))) = true <->
    is_Some (Some "POINT") /\ is_Some (Some 4326))).
Proof.
  apply (get_col_spec_reads_kind_and_srid
           (descriptor Geometry "POINT" 4326 (Some (VInt 3)) None None)
           (descriptor Geometry "POINT" 4326 None (Some (VBool false))
              (Some (VBool true)))).
  - reflexivity.
  - reflexivity.
  - reflexivity.
Defined.

(** * The base class used on its own *)

(** X10: [_GISType] leaves [name] and [from_text] at [None].  A descriptor
    made by calling [_GISType] itself raises [TypeError] in
    [bind_expression] for every bind value, prints [None] for its type name
    in the column specification, and still wraps columns in
    [ST_AsBinary]. *)
Theorem base_class_has_no_names :
  forall g s d si m self,
    call _GISType g s d si m = Ok self ->
    (forall bindvalue, bind_expression bindvalue self = (self, Raise TypeError)) /\
    (exists kind n,
       geometry_type self = Some kind /\
       srid self = Some n /\
       get_col_spec self =
       (self, Ok ("None(" +:+ kind +:+ "," +:+ Py.format_d n +:+ ")"))) /\
    (forall col,
       column_expression col self =
       (self, Ok (Some (Func "ST_AsBinary" [col] (Some self))))).
Proof.
  intros g s d si m self Hcall.
  apply call_GISType_Ok in Hcall as (kind & n & _ & _ & ->); [|discriminate].
  split; [|split].
  - reflexivity.
  - exists (Py.upper kind), n. split; [reflexivity|]. split; [reflexivity|].
    now rewrite (get_col_spec_descriptor _GISType kind n d si m None).
  - reflexivity.
Qed.

Lemma base_class_has_no_names_witness :
  (forall bindvalue,
     bind_expression bindvalue (descriptor _GISType "POINT" 4326 None None None)
     = (descriptor _GISType "POINT" 4326 None None None, Raise TypeError)) /\
  (exists kind n,
     geometry_type (descriptor _GISType "POINT" 4326 None None None) = Some kind /\
     srid (descriptor _GISType "POINT" 4326 None None None) = Some n /\
     get_col_spec (descriptor _GISType "POINT" 4326 None None None) =
     (descriptor _GISType "POINT" 4326 None None None,
      Ok ("None(" +:+ kind +:+ "," +:+ Py.format_d n +:+ ")"))) /\
  (forall col,
     column_expression col (descriptor _GISType "POINT" 4326 None None None) =
     (descriptor _GISType "POINT" 4326 None None None,
      Ok (Some (Func "ST_AsBinary" [col]
                  (Some (descriptor _GISType "POINT" 4326 None None None)))))).
Proof.
  apply (base_class_has_no_names (Some (VStr "POINT")) (Some (VInt 4326))
           None None None).
  vm_compute. reflexivity.
Defined.

(** * Further properties of the decoding closures *)

(** X11: decoding loses nothing.  On a constructed [Geometry] or [Geography]
    descriptor, and on any [Raster] object, the closure returns [None] only
    for [None] (an empty buffer is wrapped like any other), and two fetched
    values with the same result are the same value. *)
Theorem process_lossless :
  (forall cls g s d si m self v1 v2,
     base cls = Some _GISType ->
     call cls g s d si m = Ok self ->
     (snd (_GISType.process v1 self) = Ok None <-> v1 = None) /\
     (snd (_GISType.process v1 self) = snd (_GISType.process v2 self) -> v1 = v2)) /\
  (forall self v1 v2,
     (snd (Raster.process v1 self) = Ok None <-> v1 = None) /\
     (snd (Raster.process v1 self) = snd (Raster.process v2 self) -> v1 = v2)).
Proof.
  split.
  - intros cls g s d si m self v1 v2 Hcls%base_not_Raster Hcall.
    apply call_GISType_Ok in Hcall as (kind & n & _ & _ & ->); [|exact Hcls].
    destruct v1 as [b1|], v2 as [b2|]; simpl; repeat split;
      congruence.
  - intros self v1 v2.
    destruct v1 as [b1|], v2 as [b2|]; simpl; repeat split; congruence.
Qed.

Lemma process_lossless_witness :
  (snd (_GISType.process (Some []) (descriptor Geometry "POINT" 4326 None None None))
   = Ok None <-> Some (@nil Byte.byte) = None) /\
  (snd (_GISType.process (Some []) (descriptor Geometry "POINT" 4326 None None None))
   = snd (_GISType.process None (descriptor Geometry "POINT" 4326 None None None)) ->
   Some (@nil Byte.byte) = None).
Proof.
  apply (proj1 process_lossless Geometry (Some (VStr "POINT")) (Some (VInt 4326))
           None None None).
  - reflexivity.
  - vm_compute. reflexivity.
Defined.

(** * Floats with an integer value *)

Lemma float_to_int_integral (sign : bool) (m : positive) (e k : Z) :
  (0 <= e /\ k = Z.pos m * 2 ^ e) \/ (e < 0 /\ Z.pos m = k * 2 ^ (- e)) ->
  Py.float_to_int (S754_finite sign m e) = Ok (if sign then - k else k).
Proof.
  unfold Py.float_to_int. intros [[He ->] | [He Hm]].
  - destruct (0 <=? e) eqn:Hle; [reflexivity|]. apply Z.leb_gt in Hle. lia.
  - destruct (0 <=? e) eqn:Hle; [apply Z.leb_le in Hle; lia|].
    assert (Hq : 0 < 2 ^ (- e)) by (apply Z.pow_pos_nonneg; lia).
    rewrite Hm, Z.div_mul by lia. reflexivity.
Qed.

(** X12: a float SRID whose value is an integer [k] (such as [4326.0]) is
    stored as [k], with the sign of the float, and a zero of either sign is
    stored as [0]: no finite float is rejected for being a float. *)
Theorem init_srid_integral_float :
  forall cls kind d si mg,
    base cls = Some _GISType ->
    (forall sign m e k,
       (0 <= e /\ k = Z.pos m * 2 ^ e) \/ (e < 0 /\ Z.pos m = k * 2 ^ (- e)) ->
       call cls (Some (VStr kind)) (Some (VFloat (S754_finite sign m e))) d si mg
       = Ok (descriptor cls kind (if sign then - k else k) d si mg)) /\
    (forall sign,
       call cls (Some (VStr kind)) (Some (VFloat (S754_zero sign))) d si mg
       = Ok (descriptor cls kind 0 d si mg)).
Proof.
  intros cls kind d si mg Hcls%base_not_Raster. split.
  - intros sign m e k Hk. apply call_GISType_str; [exact Hcls|].
    now apply float_to_int_integral.
  - intros sign. now apply call_GISType_str.
Qed.

Lemma init_srid_integral_float_witness :
  call Geometry (Some (VStr "POINT"))
    (Some (VFloat (S754_finite false 4756487301758976 (-40)))) None None None
  = Ok (descriptor Geometry "POINT" 4326 None None None).
Proof.
  refine (proj1 (init_srid_integral_float Geometry "POINT" None None None _)
            false 4756487301758976%positive (-40) 4326 _).
  - reflexivity.
  - right. split; [lia | vm_compute; reflexivity].
Defined.

(** * Further properties of the registration *)

Section RegistrationMore.

Context {C : Type}.

Lemma register_absorbs (a b c a' b' c' : C) (t : gmap string C) :
  register a b c (register a' b' c' t) = register a b c t.
Proof.
  apply map_eq. intros k. rewrite !register_lookup.
  repeat case_decide; reflexivity.
Qed.

Lemma register_all_snoc (runs : list (C * C * C)) (r : C * C * C) (t : gmap string C) :
  register_all (runs ++ [r]) t = register r.1.1 r.1.2 r.2 (register_all runs t).
Proof. unfold register_all. now rewrite fold_left_app. Qed.

End RegistrationMore.

(** X8: a registration touches the three keys only: every other key of the
    table keeps its entry, or stays absent.  The table never shrinks, grows
    by at most three entries, and by exactly three when none of the three
    keys was present. *)
Theorem register_keeps_other_entries :
  forall (C : Type) (a b c : C) (ischema_names : gmap string C),
    (forall key,
       key <> "geometry" -> key <> "geography" -> key <> "raster" ->
       register a b c ischema_names !! key = ischema_names !! key) /\
    (size ischema_names <= size (register a b c ischema_names)
     <= size ischema_names + 3)%nat /\
    (ischema_names !! "geometry" = None ->
     ischema_names !! "geography" = None ->
     ischema_names !! "raster" = None ->
     size (register a b c ischema_names) = (size ischema_names + 3)%nat).
Proof.
  intros C a b c t.
  assert (Hfresh : forall (u : gmap string C) k v,
    (size u <= size (<[k := v]> u) <= S (size u))%nat).
  { intros u k v. destruct (u !! k) as [w|] eqn:Hk.
    - assert (Hdom : dom (<[k := v]> u) = dom u)
        by (rewrite dom_insert_L; apply elem_of_dom_2 in Hk; set_solver).
      apply (f_equal size) in Hdom. rewrite !size_dom in Hdom. lia.
    - rewrite map_size_insert_None by exact Hk. lia. }
  split; [|split].
  - intros key Hg Hgg Hr. rewrite register_lookup.
    repeat case_decide; congruence.
  - unfold register.
    pose proof (Hfresh t "geometry" a).
    pose proof (Hfresh (<["geometry" := a]> t) "geography" b).
    pose proof (Hfresh (<["geography" := b]> (<["geometry" := a]> t)) "raster" c).
    lia.
  - intros Hg Hgg Hr. unfold register.
    rewrite !map_size_insert_None; [lia | exact Hg | |].
    + now rewrite lookup_insert_ne.
    + now rewrite !lookup_insert_ne.
Qed.

Lemma register_keeps_other_entries_witness :
  register 1%nat 2%nat 3%nat {["integer" := 0%nat]} !! "integer"
  = ({["integer" := 0%nat]} : gmap string nat) !! "integer".
Proof.
  apply (proj1 (register_keeps_other_entries nat 1%nat 2%nat 3%nat
                  {["integer" := 0%nat]}) "integer"); discriminate.
Defined.

(** X9: however often the module is executed, the table afterwards is the one
    that the last execution alone gives: the classes of all earlier
    executions are gone from the three keys, and nothing else is left
    behind. *)
Theorem register_all_last_wins :
  forall (C : Type) (runs : list (C * C * C)) (a b c : C)
         (ischema_names : gmap string C),
    register_all (runs ++ [(a, b, c)]) ischema_names = register a b c ischema_names.
Proof.
  intros C runs a b c t. rewrite register_all_snoc. cbn [fst snd].
  induction runs as [|r runs IH] using rev_ind; [reflexivity|].
  rewrite register_all_snoc, register_absorbs. exact IH.
Qed.
